(** * dumpbox: the metadata logic of [bot.py]

    A shallow embedding of the two TinyDB tables of [bot.py] ([files_db],
    [folders_db]), of [FileManager.download_file], [FileManager.list_user_files],
    [FileManager.list_user_folders] and [TelegramCloudStorageBot.create_folder],
    and the properties of the specification that concern them.

    Conventions.
    - A TinyDB document is a Python dict with string keys: [gmap string value].
    - A TinyDB table is the list of its documents in [doc_id] order, which is
      insertion order ([insert] hands out the next free id).
    - TinyDB calls are total functions on tables; an I/O failure of the JSON
      storage or of [reply_text], which [create_folder] would catch and
      answer with "Could not create folder", is outside the model.
    - What the program reads from outside (the Telegram API, the HTTP
      transfer, the clock) is an explicit argument of the operation.
    - A call that sends something through the Bot API ([reply_text],
      [edit_message_text], [answer]) succeeds whenever the object it is
      called on exists. *)

From Stdlib Require Import ZArith String Ascii List Lia DecimalString DecimalPos DecimalZ.
From stdpp Require Import base option list gmap strings.

Local Open Scope string_scope.
Local Open Scope list_scope.
Local Open Scope Z_scope.

(** ** Python values held in documents *)

(** The field values [bot.py] writes: [int] ([user_id], [size]), [str], and
    [None] (a missing [mime_type]). Python's [==] between two such values is
    structural equality: an [int] never equals a [str] or [None]. *)
Inductive value : Type :=
  | VInt (z : Z)
  | VStr (s : string)
  | VNone.

#[global] Instance value_eq_dec : EqDecision value.
Proof. solve_decision. Defined.

(** ** TinyDB: documents, tables, queries *)

Module TinyDB.

Definition document : Type := gmap string value.
Definition table : Type := list document.

(** A query is the test TinyDB runs on each document. *)
Definition query : Type := document -> bool.

(** [Query().k == rhs]. TinyDB resolves the path [k] inside a [try]; a
    document without the key raises [KeyError], which makes the test
    [False]. *)
Definition field_eq (k : string) (rhs : value) : query :=
  fun doc =>
    match doc !! k with
    | Some v => bool_decide (v = rhs)
    | None => false
    end.

(** [q1 & q2]. *)
Definition q_and (q1 q2 : query) : query :=
  fun doc => q1 doc && q2 doc.

(** [table.search(cond)]: the documents that pass the test, in table order. *)
Definition search (t : table) (cond : query) : list document :=
  List.filter cond t.

(** [table.insert(doc)]: the document gets the next id, i.e. goes last. *)
Definition insert (t : table) (doc : document) : table :=
  t ++ [doc].

End TinyDB.

Import TinyDB.

Infix "&&&" := q_and (at level 40, left associativity).

(** ** The two stores of the process *)

(** [files_db] and [folders_db] are module-level handles shared by all
    handlers; [disk] is the content of the local storage directory, a path
    to bytes map. *)
Record state : Type := mkState {
  files_db : table;
  folders_db : table;
  disk : gmap string string
}.

Definition initial_state : state :=
  {| files_db := []; folders_db := []; disk := ∅ |}.

(** [files_db.insert(doc)], [folders_db.insert(doc)] and
    [open(path, 'wb').write(content)] on the process state. *)
Definition files_db_insert (st : state) (doc : document) : state :=
  {| files_db := insert (files_db st) doc;
     folders_db := folders_db st;
     disk := disk st |}.

Definition folders_db_insert (st : state) (doc : document) : state :=
  {| files_db := files_db st;
     folders_db := insert (folders_db st) doc;
     disk := disk st |}.

Definition disk_write (st : state) (path content : string) : state :=
  {| files_db := files_db st;
     folders_db := folders_db st;
     disk := <[path := content]> (disk st) |}.

(** ** FileManager.list_user_files, FileManager.list_user_folders *)

Definition list_user_files (st : state) (user_id : Z) (folder_path : string)
  : list document :=
  search (files_db st)
    (field_eq "user_id" (VInt user_id) &&& field_eq "folder" (VStr folder_path)).

Definition list_user_folders (st : state) (user_id : Z) (parent_folder : string)
  : list document :=
  search (folders_db st)
    (field_eq "user_id" (VInt user_id) &&& field_eq "parent" (VStr parent_folder)).

(** ** Python helpers used by [download_file] *)

(** [str(n)] for an [int]. *)
Definition py_str (n : Z) : string :=
  DecimalString.NilZero.string_of_int (Z.to_int n).

(** [s.split(sep)] for a one-character separator: the pieces between the
    separators, at least one piece. *)
Fixpoint split_go (sep : ascii) (acc : string) (s : string) : list string :=
  match s with
  | EmptyString => [acc]
  | String c rest =>
      if Ascii.eqb c sep then acc :: split_go sep "" rest
      else split_go sep (acc +:+ String c "") rest
  end.

Definition split (sep : ascii) (s : string) : list string := split_go sep "" s.

(** [l[-1]] on the result of [split], which is never empty. *)
Definition last_piece (l : list string) : string := List.last l "".

(** [str.startswith("/")] and [str.endswith("/")]. *)
Definition starts_with_sep (s : string) : bool :=
  match s with
  | String c _ => Ascii.eqb c "/"
  | EmptyString => false
  end.

Fixpoint ends_with_sep (s : string) : bool :=
  match s with
  | EmptyString => false
  | String c EmptyString => Ascii.eqb c "/"
  | String _ rest => ends_with_sep rest
  end.

(** [os.path.join(a, b)] of [posixpath]. *)
Definition path_join (a b : string) : string :=
  if starts_with_sep b then b
  else if (String.eqb a "" || ends_with_sep a)%bool then a +:+ b
  else a +:+ "/" +:+ b.

(** A reading of [datetime.now()]. *)
Record datetime : Type := mkDatetime {
  year : Z; month : Z; day : Z;
  hour : Z; minute : Z; second : Z;
  microsecond : Z
}.

Definition digit (n : Z) : ascii :=
  ascii_of_nat (48 + Z.to_nat (n mod 10)).

(** The [width] low decimal digits of [n], most significant first: the
    zero-padded rendering of a field that fits in [width] digits. *)
Fixpoint digits (width : nat) (n : Z) : string :=
  match width with
  | O => ""
  | S w => digits w (n / 10) +:+ String (digit n) ""
  end.

(** [dt.strftime("%Y%m%d_%H%M%S")]. *)
Definition strftime_stamp (dt : datetime) : string :=
  digits 4 (year dt) +:+ digits 2 (month dt) +:+ digits 2 (day dt) +:+ "_" +:+
  digits 2 (hour dt) +:+ digits 2 (minute dt) +:+ digits 2 (second dt).

(** [dt.isoformat()]: the microseconds are printed only when non-zero. *)
Definition isoformat (dt : datetime) : string :=
  digits 4 (year dt) +:+ "-" +:+ digits 2 (month dt) +:+ "-" +:+
  digits 2 (day dt) +:+ "T" +:+ digits 2 (hour dt) +:+ ":" +:+
  digits 2 (minute dt) +:+ ":" +:+ digits 2 (second dt) +:+
  (if microsecond dt =? 0 then "" else "." +:+ digits 6 (microsecond dt)).

(** ** FileManager.download_file *)

(** What [bot.get_file(file_id)] hands back, as far as the code reads it. *)
Record file_info : Type := mkFileInfo {
  file_path : string;
  file_url : string;
  mime_type : value
}.

(** The outside world of one [download_file] call, in the order the code
    consults it. [None] stands for a raised exception. *)
Record download_env : Type := mkDownloadEnv {
  env_get_file : option file_info;   (* await bot.get_file(file_id) *)
  env_now_stamp : datetime;          (* datetime.now() of the file name *)
  env_response : option string;      (* (await client.get(url)).content *)
  env_now_upload : datetime          (* datetime.now() of uploaded_at *)
}.

Inductive download_error : Type :=
  | GetFileFailed
  | TransferFailed.

Inductive download_result : Type :=
  | Returned (file_metadata : document)
  | Raised (e : download_error).

Section Storage.

(** [os.path.join(os.path.dirname(__file__), 'storage')]. *)
Variable BASE_STORAGE_PATH : string.

Definition local_filename_of (stamp : datetime) (original_filename : string)
  : string :=
  strftime_stamp stamp +:+ "_" +:+ original_filename.

Definition local_path_of (user_id : Z) (local_filename : string) : string :=
  path_join (path_join BASE_STORAGE_PATH (py_str user_id)) local_filename.

Definition file_metadata_of (file_id : string) (user_id : Z)
    (info : file_info) (content : string) (env : download_env) : document :=
  let original_filename := last_piece (split "/" (file_path info)) in
  let local_filename := local_filename_of (env_now_stamp env) original_filename in
  let local_path := local_path_of user_id local_filename in
  {[ "file_id" := VStr file_id;
     "name" := VStr local_filename;
     "original_name" := VStr original_filename;
     "path" := VStr local_path;
     "user_id" := VInt user_id;
     "size" := VInt (Z.of_nat (String.length content));
     "mime_type" := mime_type info;
     "uploaded_at" := VStr (isoformat (env_now_upload env)) ]}.

(** The [try] body of [download_file]; the [except] clause logs and
    re-raises, so a failure leaves through [Raised]. *)
Definition download_file (st : state) (env : download_env)
    (file_id : string) (user_id : Z) : state * download_result :=
  match env_get_file env with
  | None => (st, Raised GetFileFailed)
  | Some info =>
      let original_filename := last_piece (split "/" (file_path info)) in
      let local_filename :=
        local_filename_of (env_now_stamp env) original_filename in
      let local_path := local_path_of user_id local_filename in
      match env_response env with
      | None => (st, Raised TransferFailed)
      | Some content =>
          let file_metadata :=
            file_metadata_of file_id user_id info content env in
          let st := disk_write st local_path content in
          let st := files_db_insert st file_metadata in
          (st, Returned file_metadata)
      end
  end.

End Storage.

(** ** TelegramCloudStorageBot.create_folder *)

(** The message the handler sends with [update.message.reply_text]. *)
Inductive reply : Type :=
  | FolderAlreadyExists (folder_name : string)   (* "Folder '..' already exists!" *)
  | FolderCreated (folder_name : string)         (* "Folder '..' created successfully!" *)
  | AskFolderName.                               (* "Please enter a name for the new folder:" *)

#[global] Instance reply_eq_dec : EqDecision reply.
Proof. solve_decision. Defined.

(** Conversation states: [ConversationHandler.END] and the second element
    of [range(9)]. *)
Definition END : Z := -1.
Definition FOLDER_NAME : Z := 1.

Definition folder_record (folder_name : string) (user_id : Z) (now : datetime)
  : document :=
  {[ "name" := VStr folder_name;
     "user_id" := VInt user_id;
     "parent" := VStr "/";
     "created_at" := VStr (isoformat now) ]}.

(** [folder_name] is [context.user_data.get('new_folder_name')]: [None] when
    the key is absent. [if folder_name:] is false for [None] and for the
    empty string. The code from the [search] to the [insert] contains no
    [await]. *)
Definition create_folder (st : state) (user_id : Z)
    (folder_name : option string) (now : datetime) : state * reply * Z :=
  match folder_name with
  | None => (st, AskFolderName, FOLDER_NAME)
  | Some "" => (st, AskFolderName, FOLDER_NAME)
  | Some name =>
      let existing_folder :=
        search (folders_db st)
          (field_eq "name" (VStr name) &&& field_eq "user_id" (VInt user_id)) in
      match existing_folder with
      | _ :: _ => (st, FolderAlreadyExists name, END)
      | [] =>
          (folders_db_insert st (folder_record name user_id now),
           FolderCreated name, END)
      end
  end.

(** Field-wise access to the triple a handler call produces. *)
Definition state_after (r : state * reply * Z) : state := fst (fst r).
Definition reply_of (r : state * reply * Z) : reply := snd (fst r).
Definition next_state (r : state * reply * Z) : Z := snd r.

(** ** Handler calls in sequence *)

(** One [create_folder] update: who sends it, the pending folder name and
    the clock reading of the call. *)
Record folder_request : Type := mkFolderRequest {
  req_user : Z;
  req_name : option string;
  req_now : datetime
}.

Definition serve (st : state) (r : folder_request) : state :=
  state_after (create_folder st (req_user r) (req_name r) (req_now r)).

Definition run_create_folders (st : state) (reqs : list folder_request)
  : state :=
  fold_left serve reqs st.

(** ** Overlapping handler calls on the asyncio event loop *)

(** The handlers are coroutines of one event loop: control passes to
    another coroutine only at an [await]. [create_folder] awaits once, at
    [update.message.reply_text], after its [search] and [insert]. A
    coroutine is therefore not yet started, suspended at the reply, or
    finished. *)
Inductive coroutine : Type :=
  | NotStarted (user_id : Z) (folder_name : option string)
  | AwaitingReply (r : reply) (ret : Z)
  | Finished (r : reply) (ret : Z).

(** Resuming a coroutine runs it up to its next [await]. *)
Definition resume (st : state) (now : datetime) (c : coroutine)
  : state * coroutine :=
  match c with
  | NotStarted user_id folder_name =>
      let out := create_folder st user_id folder_name now in
      (state_after out, AwaitingReply (reply_of out) (next_state out))
  | AwaitingReply r ret => (st, Finished r ret)
  | Finished r ret => (st, Finished r ret)
  end.

(** One turn of the loop: the scheduler picks coroutine [i]; [now] is the
    clock at that moment. *)
Definition loop_turn (cfg : state * list coroutine) (pick : nat * datetime)
  : state * list coroutine :=
  match snd cfg !! fst pick with
  | Some c =>
      let (st', c') := resume (fst cfg) (snd pick) c in
      (st', <[fst pick := c']> (snd cfg))
  | None => cfg
  end.

Definition run_loop (cfg : state * list coroutine)
    (schedule : list (nat * datetime)) : state * list coroutine :=
  fold_left loop_turn schedule cfg.

Definition is_finished (c : coroutine) : bool :=
  match c with Finished _ _ => true | _ => false end.

(** The reply a coroutine has produced so far. *)
Definition replied (c : coroutine) : option reply :=
  match c with
  | NotStarted _ _ => None
  | AwaitingReply r _ | Finished r _ => Some r
  end.

Definition count_replies (r : reply) (tasks : list coroutine) : nat :=
  length (List.filter (fun c => bool_decide (replied c = Some r)) tasks).

(** ** Telegram updates and what a handler does with them *)

(** A Python [str] is a sequence of characters; the model keeps the
    characters U+0000 to U+00FF, one [ascii] each. [c.isspace()] on that
    range: the controls U+0009 to U+000D and U+001C to U+001F, the space,
    U+0085 and U+00A0. *)
Definition isspace (c : ascii) : bool :=
  let n := nat_of_ascii c in
  (((9 <=? n) && (n <=? 13)) || ((28 <=? n) && (n <=? 32))
   || (n =? 133) || (n =? 160))%nat.

(** [s.lstrip()], [s.rstrip()] and [s.strip()]. *)
Fixpoint lstrip (s : string) : string :=
  match s with
  | EmptyString => ""
  | String c rest => if isspace c then lstrip rest else s
  end.

Fixpoint rstrip (s : string) : string :=
  match s with
  | EmptyString => ""
  | String c rest =>
      match rstrip rest with
      | EmptyString => if isspace c then "" else String c ""
      | kept => String c kept
      end
  end.

Definition strip (s : string) : string := rstrip (lstrip s).

(** [f"{v}"] for a field value. *)
Definition py_format (v : value) : string :=
  match v with
  | VInt z => py_str z
  | VStr s => s
  | VNone => "None"
  end.

(** The parts of [update.message] the handlers read: [text], and the
    [file_id] of [document]. Either may be [None]. *)
Record message_t : Type := mkMessage {
  msg_text : option string;
  msg_document : option string
}.

(** [update.callback_query]: [from_user.id] and [data]. *)
Record callback_query_t : Type := mkCallbackQuery {
  from_user : Z;
  data : string
}.

(** An incoming update. [effective_user] is the id of
    [update.effective_user]; each of the three attributes may be [None]. *)
Record update : Type := mkUpdate {
  effective_user : option Z;
  message : option message_t;
  callback_query : option callback_query_t
}.

(** The icon a button text starts with; the text is the icon, a space and
    the caption. *)
Inductive icon : Type :=
  | IconFolder | IconFile | IconHome | IconPlus
  | IconFiles | IconUpload | IconNewFolder | IconSearch.

Record button : Type := mkButton {
  button_icon : icon;
  caption : string;
  callback_data : string
}.

(** What a handler sends back through the Bot API. *)
Inductive sent : Type :=
  | ReplyText (r : reply)                        (* the replies of create_folder *)
  | ReplyCouldNotCreate                          (* "Could not create folder. Please try again." *)
  | ReplyUploaded (name : string)                (* "File '..' uploaded successfully!" *)
  | ReplyUploadFailed                            (* "File upload failed. Please try again." *)
  | ReplyUploadPrompt                            (* "Please upload a file. ..." *)
  | ReplyWelcome (keyboard : list (list button)) (* "Welcome, ..!" with the menu *)
  | EditFilesAndFolders (keyboard : list (list button)) (* "Your Files and Folders:" *)
  | AnswerCouldNotList.                          (* "Could not list files. Please try again." *)

(** Reading an attribute of [None]. *)
Inductive exception : Type :=
  | AttributeError.

(** How a handler call ends: it returns a conversation state (or [None]),
    or an exception leaves it. *)
Inductive outcome : Type :=
  | Return (ret : option Z)
  | Raise (e : exception).

(** [await update.message.reply_text(..)]: fails on an update without a
    message. *)
Definition reply_text (upd : update) (m : sent) : option sent :=
  match message upd with
  | Some _ => Some m
  | None => None
  end.

(** [context.user_data]: the dict the framework keeps per user between
    updates. The code stores one key, a [str]. *)
Definition new_folder_name : string := "new_folder_name".

(** [TelegramCloudStorageBot.create_folder] as a handler: the pending name
    comes from [user_data], the answers go through [reply_text]. A failing
    [reply_text] inside the [try] lands in the [except] clause, which calls
    [reply_text] again. *)
Definition create_folder_handler (st : state) (user_data : gmap string string)
    (upd : update) (now : datetime) : state * list sent * outcome :=
  match effective_user upd with
  | None => (st, [], Raise AttributeError)
  | Some user_id =>
      let on_except (st' : state) :=
        match reply_text upd ReplyCouldNotCreate with
        | Some m => (st', [m], Return (Some END))
        | None => (st', [], Raise AttributeError)
        end in
      let ask :=
        match reply_text upd (ReplyText AskFolderName) with
        | Some m => (st, [m], Return (Some FOLDER_NAME))
        | None => (st, [], Raise AttributeError)
        end in
      match user_data !! new_folder_name with
      | None => ask
      | Some "" => ask
      | Some folder_name =>
          let existing_folder :=
            search (folders_db st)
              (field_eq "name" (VStr folder_name)
               &&& field_eq "user_id" (VInt user_id)) in
          match existing_folder with
          | _ :: _ =>
              match reply_text upd (ReplyText (FolderAlreadyExists folder_name)) with
              | Some m => (st, [m], Return (Some END))
              | None => on_except st
              end
          | [] =>
              let st' :=
                folders_db_insert st (folder_record folder_name user_id now) in
              match reply_text upd (ReplyText (FolderCreated folder_name)) with
              | Some m => (st', [m], Return (Some END))
              | None => on_except st'
              end
          end
      end
  end.

(** [handle_folder_name]: the trimmed message text becomes the pending
    name, then [create_folder] runs. The handler also returns the updated
    [user_data]. *)
Definition handle_folder_name (st : state) (user_data : gmap string string)
    (upd : update) (now : datetime)
  : gmap string string * (state * list sent * outcome) :=
  match message upd with
  | None => (user_data, (st, [], Raise AttributeError))
  | Some m =>
      match msg_text m with
      | None => (user_data, (st, [], Raise AttributeError))
      | Some text =>
          let folder_name := strip text in
          let user_data := <[new_folder_name := folder_name]> user_data in
          (user_data, create_folder_handler st user_data upd now)
      end
  end.


(** The menu of [start]. *)
Definition start_keyboard : list (list button) :=
  [ [ mkButton IconFiles "Files" "list_files";
      mkButton IconUpload "Upload" "upload_file" ];
    [ mkButton IconNewFolder "New Folder" "create_folder";
      mkButton IconSearch "Search" "search_files" ] ].

(** The buttons of [list_files]. [folder['name']], [file['name']] and
    [file['file_id']] raise [KeyError] on a document without the key. *)
Definition folder_button (folder : document) : option button :=
  match folder !! "name" with
  | Some name =>
      Some (mkButton IconFolder (py_format name)
              ("open_folder_" +:+ py_format name))
  | None => None
  end.

Definition file_button (file : document) : option button :=
  match file !! "name", file !! "file_id" with
  | Some name, Some file_id =>
      Some (mkButton IconFile (py_format name)
              ("file_details_" +:+ py_format file_id))
  | _, _ => None
  end.

Definition navigation_row : list button :=
  [ mkButton IconHome "Home" "home"; mkButton IconPlus "New" "upload_file" ].

(** One button per row; [None] when building some button raises. *)
Fixpoint button_rows (make : document -> option button) (docs : list document)
  : option (list (list button)) :=
  match docs with
  | [] => Some []
  | doc :: rest =>
      match make doc, button_rows make rest with
      | Some b, Some rows => Some ([b] :: rows)
      | _, _ => None
      end
  end.

(** [list_files]: the folders and files of the root, folders first, then
    the navigation row; any exception inside the [try] is answered with
    "Could not list files". *)
Definition list_files (st : state) (upd : update) : state * list sent * outcome :=
  match callback_query upd with
  | None => (st, [], Raise AttributeError)
  | Some query =>
      let user_id := from_user query in
      let files := list_user_files st user_id "/" in
      let folders := list_user_folders st user_id "/" in
      match button_rows folder_button folders, button_rows file_button files with
      | Some folder_rows, Some file_rows =>
          (st,
           [EditFilesAndFolders (folder_rows ++ file_rows ++ [navigation_row])],
           Return None)
      | _, _ => (st, [AnswerCouldNotList], Return None)
      end
  end.

(** The [CallbackQueryHandler] patterns of [build_application]. A pattern
    without regular-expression operators matches, under [re.match], the
    data that start with it. *)
Definition callback_patterns : list string :=
  ["list_files"; "upload_file"; "create_folder"].

Definition handled_callback (callback : string) : bool :=
  existsb (fun pattern => String.prefix pattern callback) callback_patterns.

(** ** Runs of the two operations that write the stores *)

Inductive event : Type :=
  | CreateFolder (user_id : Z) (folder_name : option string) (now : datetime)
  | Download (env : download_env) (file_id : string) (user_id : Z).

Definition step (BASE_STORAGE_PATH : string) (st : state) (ev : event) : state :=
  match ev with
  | CreateFolder user_id folder_name now =>
      state_after (create_folder st user_id folder_name now)
  | Download env file_id user_id =>
      fst (download_file BASE_STORAGE_PATH st env file_id user_id)
  end.

Definition run (BASE_STORAGE_PATH : string) (st : state) (evs : list event)
  : state :=
  fold_left (step BASE_STORAGE_PATH) evs st.

(** The key [create_folder] compares: owner and name. *)
Definition folder_key (doc : document) : option value * option value :=
  (doc !! "user_id", doc !! "name").

(** No character of [s] is the path separator. *)
Fixpoint no_sep (s : string) : bool :=
  match s with
  | EmptyString => true
  | String c rest => negb (Ascii.eqb c "/") && no_sep rest
  end.

(** Every character of [s] is whitespace. *)
Fixpoint all_space (s : string) : bool :=
  match s with
  | EmptyString => true
  | String c rest => isspace c && all_space rest
  end.

(** [user_folder] of [download_file]: the directory of one user. *)
Definition user_folder (BASE_STORAGE_PATH : string) (user_id : Z) : string :=
  path_join BASE_STORAGE_PATH (py_str user_id).

(** What the handlers keep true of the stores they build: each folder
    record is one [create_folder] wrote, no owner has two folders of one
    name, and each file record has its fields, lacks [folder], and points
    to a file on disk. *)
Definition written_folder (doc : document) : Prop :=
  exists name user_id now, name <> "" /\ doc = folder_record name user_id now.

Definition written_file (st : state) (doc : document) : Prop :=
  doc !! "folder" = None
  /\ is_Some (doc !! "name") /\ is_Some (doc !! "file_id")
  /\ exists path, doc !! "path" = Some (VStr path) /\ is_Some (disk st !! path).

Definition handler_built (st : state) : Prop :=
  Forall written_folder (folders_db st)
  /\ NoDup (folder_key <$> folders_db st)
  /\ Forall (written_file st) (files_db st).

(** [start]: the welcome message with the menu. *)
Definition start (upd : update) : list sent * outcome :=
  match message upd, effective_user upd with
  | Some _, Some _ => ([ReplyWelcome start_keyboard], Return None)
  | _, _ => ([], Raise AttributeError)
  end.

(** The buttons of a keyboard, row after row. *)
Definition buttons_of (keyboard : list (list button)) : list button :=
  concat keyboard.



(** ** Concrete inputs *)

Module Sample.

Definition base : string := "/srv/dumpbox/storage".

(** Two clock readings within one second, and one a minute later. *)
Definition noon_early : datetime := mkDatetime 2024 1 1 12 0 0 100000.
Definition noon_late : datetime := mkDatetime 2024 1 1 12 0 0 900000.
Definition noon_one : datetime := mkDatetime 2024 1 1 12 1 0 0.

Definition cat_info : file_info :=
  {| file_path := "documents/cat.png";
     file_url := "https://api.telegram.org/file/bot/documents/cat.png";
     mime_type := VStr "image/png" |}.

(** A successful transfer of [cat.png] at [stamp] with the bytes
    [content]. *)
Definition cat_upload (stamp : datetime) (content : string) : download_env :=
  {| env_get_file := Some cat_info;
     env_now_stamp := stamp;
     env_response := Some content;
     env_now_upload := stamp |}.



(** The store after user 1 has created the folder "Docs". *)
Definition docs_store : state :=
  folders_db_insert initial_state (folder_record "Docs" 1 noon_early).

(** Three coroutines, resumed in the order 0, 1, 2, 1, 0, 2. *)
Definition interleaving : list (nat * datetime) :=
  [(0%nat, noon_early); (1%nat, noon_early); (2%nat, noon_late);
   (1%nat, noon_late); (0%nat, noon_one); (2%nat, noon_one)].


(** Updates: a text message, a document message and a callback query. *)
Definition text_update (user_id : Z) (text : string) : update :=
  mkUpdate (Some user_id) (Some (mkMessage (Some text) None)) None.


Definition callback_update (user_id : Z) (callback : string) : update :=
  mkUpdate (Some user_id) None (Some (mkCallbackQuery user_id callback)).



(** The pending name "Photos" in [user_data]. *)
Definition photos_pending : gmap string string :=
  {[ new_folder_name := "Photos" ]}.

(** What [list_files] shows user 1 on [docs_store]. *)
Definition docs_keyboard : list (list button) :=
  [ [mkButton IconFolder "Docs" "open_folder_Docs"]; navigation_row ].

End Sample.

(** A folder called [name] is stored for [user_id], under whatever parent. *)
Definition has_folder (st : state) (user_id : Z) (name : string) : Prop :=
  exists doc, doc ∈ folders_db st
    /\ doc !! "name" = Some (VStr name)
    /\ doc !! "user_id" = Some (VInt user_id).

(** A folder called [name] is among the children of [parent] that
    [list_user_folders] shows to [user_id]. *)
Definition has_sibling (st : state) (user_id : Z) (parent name : string)
  : Prop :=
  exists doc, doc ∈ list_user_folders st user_id parent
    /\ doc !! "name" = Some (VStr name).

(** Every stored folder is an immediate child of the root. *)
Definition flat (st : state) : Prop :=
  Forall (fun doc => doc !! "parent" = Some (VStr "/")) (folders_db st).

(** How many documents of a listing carry the folder name [name]. *)
Definition count_named (name : string) (l : list document) : nat :=
  length (List.filter
            (fun doc => bool_decide (doc !! "name" = Some (VStr name))) l).

(** The coroutines of [n] overlapping [create_folder] calls for the same
    user and name are each not started, or have answered "created" or
    "already exists" for that name. *)
Inductive same_call (user_id : Z) (name : string) : coroutine -> Prop :=
  | same_call_not_started :
      same_call user_id name (NotStarted user_id (Some name))
  | same_call_awaiting r ret :
      r = FolderCreated name \/ r = FolderAlreadyExists name ->
      same_call user_id name (AwaitingReply r ret)
  | same_call_finished r ret :
      r = FolderCreated name \/ r = FolderAlreadyExists name ->
      same_call user_id name (Finished r ret).

(** What holds between the turns of the loop: while the folder is absent
    no coroutine has answered; once it is present exactly one has answered
    "created". *)
Definition loop_invariant (user_id : Z) (name : string)
    (cfg : state * list coroutine) : Prop :=
  Forall (same_call user_id name) (snd cfg)
  /\ ((~ has_folder (fst cfg) user_id name
       /\ Forall (fun c => replied c = None) (snd cfg))
      \/ (has_folder (fst cfg) user_id name
          /\ count_replies (FolderCreated name) (snd cfg) = 1%nat)).

(** * Properties *)

(** ** TinyDB queries *)

Lemma field_eq_true (k : string) (rhs : value) (doc : document) :
  field_eq k rhs doc = true <-> doc !! k = Some rhs.
Proof.
  unfold field_eq. destruct (doc !! k) as [v|] eqn:E.
  - rewrite bool_decide_eq_true. split; congruence.
  - split; discriminate.
Qed.


Lemma q_and_true (q1 q2 : query) (doc : document) :
  (q1 &&& q2) doc = true <-> q1 doc = true /\ q2 doc = true.
Proof. unfold q_and. apply andb_true_iff. Qed.

Lemma elem_of_search (t : table) (cond : query) (doc : document) :
  doc ∈ search t cond <-> doc ∈ t /\ cond doc = true.
Proof. unfold search. rewrite !list_elem_of_In. apply List.filter_In. Qed.

Lemma search_insert (t : table) (cond : query) (doc : document) :
  search (insert t doc) cond =
  search t cond ++ (if cond doc then [doc] else []).
Proof. unfold search, insert. rewrite List.filter_app. reflexivity. Qed.

Lemma search_nil_iff (t : table) (cond : query) :
  search t cond = [] <-> forall doc, doc ∈ t -> cond doc = false.
Proof.
  split.
  - intros E doc Hin. destruct (cond doc) eqn:C; [|reflexivity].
    assert (doc ∈ search t cond) as H by (apply elem_of_search; auto).
    rewrite E in H. inversion H.
  - intros H. induction t as [|d t IH]; [reflexivity|].
    unfold search in *. simpl. rewrite (H d) by constructor.
    apply IH. intros doc Hin. apply H. by constructor.
Qed.

(** ** Listings *)

Lemma list_user_files_spec (st : state) (user_id : Z) (folder_path : string)
    (doc : document) :
  doc ∈ list_user_files st user_id folder_path <->
  doc ∈ files_db st /\ doc !! "user_id" = Some (VInt user_id)
  /\ doc !! "folder" = Some (VStr folder_path).
Proof.
  unfold list_user_files.
  rewrite elem_of_search, q_and_true, !field_eq_true. reflexivity.
Qed.

Lemma list_user_folders_spec (st : state) (user_id : Z) (parent_folder : string)
    (doc : document) :
  doc ∈ list_user_folders st user_id parent_folder <->
  doc ∈ folders_db st /\ doc !! "user_id" = Some (VInt user_id)
  /\ doc !! "parent" = Some (VStr parent_folder).
Proof.
  unfold list_user_folders.
  rewrite elem_of_search, q_and_true, !field_eq_true. reflexivity.
Qed.

(** ** Fields of the records the handlers write *)

Section Records.

Variable BASE_STORAGE_PATH : string.
Variables (file_id : string) (user_id : Z) (info : file_info)
          (content : string) (env : download_env).

Let md := file_metadata_of BASE_STORAGE_PATH file_id user_id info content env.



Lemma file_metadata_original_name :
  md !! "original_name" = Some (VStr (last_piece (split "/" (file_path info)))).
Proof. reflexivity. Qed.



End Records.


Lemma folder_record_user (name : string) (user_id : Z) (now : datetime) :
  folder_record name user_id now !! "user_id" = Some (VInt user_id).
Proof. reflexivity. Qed.

Lemma folder_record_parent (name : string) (user_id : Z) (now : datetime) :
  folder_record name user_id now !! "parent" = Some (VStr "/").
Proof. reflexivity. Qed.

(** ** Stored names *)

Lemma length_append (a b : string) :
  String.length (a +:+ b) = (String.length a + String.length b)%nat.
Proof.
  induction a as [|c a IH]; [reflexivity|].
  change (String c a +:+ b) with (String c (a +:+ b)).
  cbn [String.length Nat.add]. f_equal. exact IH.
Qed.

Lemma append_inj_same_length (a b t t' : string) :
  String.length a = String.length b ->
  a +:+ t = b +:+ t' -> a = b /\ t = t'.
Proof.
  revert b. induction a as [|c a IH]; intros [|d b] Hlen Heq;
    try discriminate.
  - by split.
  - change (String c (a +:+ t) = String d (b +:+ t')) in Heq.
    injection Hlen as Hlen. injection Heq as -> Heq.
    destruct (IH b Hlen Heq) as [-> ->]. by split.
Qed.

Lemma digits_length (width : nat) (n : Z) :
  String.length (digits width n) = width.
Proof.
  revert n. induction width as [|w IH]; intros n; [reflexivity|].
  cbn [digits]. rewrite length_append, IH. cbn. lia.
Qed.

Lemma strftime_stamp_length (dt : datetime) :
  String.length (strftime_stamp dt) = 15%nat.
Proof.
  unfold strftime_stamp. rewrite !length_append, !digits_length. reflexivity.
Qed.

(** Two stored names are equal only if both the rendered second and the
    original name are. *)
Lemma local_filename_of_inj (stamp1 stamp2 : datetime)
    (original1 original2 : string) :
  local_filename_of stamp1 original1 = local_filename_of stamp2 original2 ->
  strftime_stamp stamp1 = strftime_stamp stamp2 /\ original1 = original2.
Proof.
  unfold local_filename_of. intros Heq.
  apply append_inj_same_length in Heq as [Hs Ho].
  - split; [exact Hs|]. by injection Ho.
  - by rewrite !strftime_stamp_length.
Qed.

(** ** download_file *)

Section Download.

Variable BASE_STORAGE_PATH : string.

Local Abbreviation download := (download_file BASE_STORAGE_PATH).
Local Abbreviation metadata := (file_metadata_of BASE_STORAGE_PATH).







End Download.

(** ** create_folder *)

Lemma has_folder_search (st : state) (user_id : Z) (name : string) :
  has_folder st user_id name <->
  search (folders_db st)
    (field_eq "name" (VStr name) &&& field_eq "user_id" (VInt user_id)) <> [].
Proof.
  split.
  - intros (doc & Hin & Hn & Hu) E.
    assert (doc ∈ search (folders_db st)
              (field_eq "name" (VStr name) &&& field_eq "user_id" (VInt user_id)))
      as H.
    { apply elem_of_search. split; [exact Hin|].
      apply q_and_true. by rewrite !field_eq_true. }
    rewrite E in H. inversion H.
  - destruct (search _ _) as [|doc l] eqn:E; [congruence|]. intros _.
    assert (doc ∈ search (folders_db st)
              (field_eq "name" (VStr name) &&& field_eq "user_id" (VInt user_id)))
      as H by (rewrite E; constructor).
    apply elem_of_search in H as [Hin Hq].
    apply q_and_true in Hq as [Hn Hu]. apply field_eq_true in Hn, Hu.
    by exists doc.
Qed.

Lemma create_folder_no_name (st : state) (user_id : Z) (now : datetime) :
  create_folder st user_id None now = (st, AskFolderName, FOLDER_NAME)
  /\ create_folder st user_id (Some "") now = (st, AskFolderName, FOLDER_NAME).
Proof. split; reflexivity. Qed.

Lemma create_folder_taken (st : state) (user_id : Z) (name : string)
    (now : datetime) :
  name <> "" ->
  has_folder st user_id name ->
  create_folder st user_id (Some name) now = (st, FolderAlreadyExists name, END).
Proof.
  intros Hne Hex. apply has_folder_search in Hex.
  destruct name as [|c s]; [congruence|].
  unfold create_folder. destruct (search _ _); [congruence|reflexivity].
Qed.

Lemma create_folder_fresh (st : state) (user_id : Z) (name : string)
    (now : datetime) :
  name <> "" ->
  ~ has_folder st user_id name ->
  create_folder st user_id (Some name) now =
  (folders_db_insert st (folder_record name user_id now), FolderCreated name, END).
Proof.
  intros Hne Hex. rewrite has_folder_search in Hex.
  destruct name as [|c s]; [congruence|].
  unfold create_folder. destruct (search _ _); [reflexivity|].
  exfalso. apply Hex. discriminate.
Qed.

Lemma has_folder_dec (st : state) (user_id : Z) (name : string) :
  {has_folder st user_id name} + {~ has_folder st user_id name}.
Proof.
  destruct (search (folders_db st)
              (field_eq "name" (VStr name) &&& field_eq "user_id" (VInt user_id)))
    as [|doc l] eqn:E.
  - right. rewrite has_folder_search. congruence.
  - left. rewrite has_folder_search. congruence.
Defined.

(** A reply [FolderCreated] tells what the call was given and found. *)
Lemma create_folder_created_inv (st : state) (user_id : Z)
    (folder_name : option string) (now : datetime) (name : string) :
  reply_of (create_folder st user_id folder_name now) = FolderCreated name ->
  folder_name = Some name /\ name <> "" /\ ~ has_folder st user_id name.
Proof.
  destruct folder_name as [n|]; [|discriminate].
  destruct (string_dec n "") as [->|Hne]; [discriminate|].
  destruct (has_folder_dec st user_id n) as [Hex|Hex].
  - rewrite (create_folder_taken _ _ _ _ Hne Hex). discriminate.
  - rewrite (create_folder_fresh _ _ _ _ Hne Hex). cbn.
    intros [= <-]. auto.
Qed.

Lemma has_folder_after_insert (st : state) (user_id : Z) (name : string)
    (now : datetime) :
  has_folder (folders_db_insert st (folder_record name user_id now)) user_id name.
Proof.
  exists (folder_record name user_id now). split; [|split; reflexivity].
  cbn. unfold TinyDB.insert. apply elem_of_app. right. constructor.
Qed.

Lemma folder_record_listed_at_root (name : string) (user_id : Z)
    (now : datetime) :
  (field_eq "user_id" (VInt user_id) &&& field_eq "parent" (VStr "/"))
    (folder_record name user_id now) = true.
Proof. apply q_and_true. rewrite !field_eq_true. split; reflexivity. Qed.

(** On a flat store the name check of [create_folder] is the check for a
    sibling under the root. *)
Lemma flat_has_folder_iff_sibling (st : state) (user_id : Z) (name : string) :
  flat st ->
  has_folder st user_id name <-> has_sibling st user_id "/" name.
Proof.
  unfold has_sibling.
  intros Hflat. split.
  - intros (doc & Hin & Hn & Hu). exists doc. split; [|exact Hn].
    apply list_user_folders_spec. repeat split; try assumption.
    unfold flat in Hflat. rewrite Forall_forall in Hflat. by apply Hflat.
  - intros (doc & Hin & Hn). apply list_user_folders_spec in Hin as (? & ? & _).
    by exists doc.
Qed.


(** C5. For a non-empty name that no folder of the user carries yet, the
    first [create_folder] call answers "created" and stores the record;
    the same call again answers "already exists" and leaves the store as
    the first call left it. *)
Theorem create_folder_twice (st : state) (user_id : Z) (name : string)
    (now1 now2 : datetime) :
  name <> "" ->
  ~ has_folder st user_id name ->
  let out1 := create_folder st user_id (Some name) now1 in
  let out2 := create_folder (state_after out1) user_id (Some name) now2 in
  reply_of out1 = FolderCreated name
  /\ next_state out1 = END
  /\ folders_db (state_after out1)
     = folders_db st ++ [folder_record name user_id now1]
  /\ out2 = (state_after out1, FolderAlreadyExists name, END).
Proof.
  intros Hne Hfresh out1 out2. subst out2 out1.
  rewrite (create_folder_fresh _ _ _ _ Hne Hfresh).
  cbn [state_after reply_of next_state fst snd].
  repeat split.
  apply create_folder_taken; [exact Hne|]. apply has_folder_after_insert.
Qed.

(** C6. After a [create_folder] call that answered "created", the user's
    listing of the root is the listing from before followed by the new
    record, and exactly one entry of it carries the new folder's name. *)
Theorem created_folder_listed_once (st : state) (user_id : Z)
    (folder_name : option string) (now : datetime) (name : string) :
  reply_of (create_folder st user_id folder_name now) = FolderCreated name ->
  let st' := state_after (create_folder st user_id folder_name now) in
  list_user_folders st' user_id "/"
  = list_user_folders st user_id "/" ++ [folder_record name user_id now]
  /\ folder_record name user_id now ∈ list_user_folders st' user_id "/"
  /\ count_named name (list_user_folders st' user_id "/") = 1%nat.
Proof.
  intros Hok st'. subst st'.
  apply create_folder_created_inv in Hok as (-> & Hne & Hfresh).
  rewrite (create_folder_fresh _ _ _ _ Hne Hfresh).
  cbn [state_after fst].
  assert (list_user_folders
            (folders_db_insert st (folder_record name user_id now)) user_id "/"
          = list_user_folders st user_id "/" ++ [folder_record name user_id now])
    as Hlist.
  { unfold list_user_folders. cbn [folders_db folders_db_insert].
    rewrite search_insert, folder_record_listed_at_root. reflexivity. }
  rewrite Hlist. split; [reflexivity|]. split.
  - apply elem_of_app. right. constructor.
  - unfold count_named. rewrite List.filter_app, length_app.
    replace (List.filter _ (list_user_folders st user_id "/")) with (@nil document).
    + cbn. rewrite bool_decide_eq_true_2 by reflexivity. reflexivity.
    + symmetry. apply (search_nil_iff _ (fun doc => bool_decide _)).
      intros doc Hin. apply bool_decide_eq_false. intros Hn.
      apply Hfresh. apply list_user_folders_spec in Hin as (Hin & Hu & _).
      by exists doc.
Qed.

(** The store effect of one [create_folder] call: nothing, or one record
    appended to [folders_db]. *)
Lemma create_folder_effect (st : state) (user_id : Z)
    (folder_name : option string) (now : datetime) :
  state_after (create_folder st user_id folder_name now) = st
  \/ exists name,
       folder_name = Some name
       /\ state_after (create_folder st user_id folder_name now)
          = folders_db_insert st (folder_record name user_id now).
Proof.
  destruct folder_name as [n|]; [|by left].
  destruct (string_dec n "") as [->|Hne]; [by left|].
  destruct (has_folder_dec st user_id n) as [Hex|Hex].
  - left. by rewrite (create_folder_taken _ _ _ _ Hne Hex).
  - right. exists n. by rewrite (create_folder_fresh _ _ _ _ Hne Hex).
Qed.

Lemma create_folder_keeps_flat (st : state) (user_id : Z)
    (folder_name : option string) (now : datetime) :
  flat st -> flat (state_after (create_folder st user_id folder_name now)).
Proof.
  intros Hflat.
  destruct (create_folder_effect st user_id folder_name now)
    as [->|(name & _ & ->)]; [exact Hflat|].
  unfold flat in *. cbn [folders_db folders_db_insert]. unfold TinyDB.insert.
  apply Forall_app. split; [exact Hflat|].
  constructor; [reflexivity|constructor].
Qed.

Lemma run_create_folders_keeps_flat (reqs : list folder_request) (st : state) :
  flat st -> flat (run_create_folders st reqs).
Proof.
  revert st. induction reqs as [|r reqs IH]; intros st Hflat; [exact Hflat|].
  cbn. apply IH. by apply create_folder_keeps_flat.
Qed.

(** C9. A [create_folder] call either leaves [folders_db] alone or appends
    one record whose [parent] is "/"; hence after any sequence of
    [create_folder] calls on the empty store every stored folder has parent
    "/". *)
Theorem created_folders_are_root_children :
  (forall st user_id folder_name now,
      folders_db (state_after (create_folder st user_id folder_name now))
      = folders_db st
      \/ exists doc,
           folders_db (state_after (create_folder st user_id folder_name now))
           = folders_db st ++ [doc]
           /\ doc !! "parent" = Some (VStr "/"))
  /\ (forall reqs, flat (run_create_folders initial_state reqs)).
Proof.
  split.
  - intros st user_id folder_name now.
    destruct (create_folder_effect st user_id folder_name now)
      as [->|(name & _ & ->)]; [by left|].
    right. exists (folder_record name user_id now). split; reflexivity.
  - intros reqs. apply run_create_folders_keeps_flat. constructor.
Qed.

(** ** Listings: owners and raw paths *)

Lemma search_insert_unmatched (t : table) (cond : query) (doc : document) :
  cond doc = false -> search (insert t doc) cond = search t cond.
Proof. intros H. rewrite search_insert, H. apply app_nil_r. Qed.

Lemma other_user_unmatched (k : string) (u v : Z) (rhs : value)
    (doc : document) :
  u <> v ->
  doc !! "user_id" = Some (VInt v) ->
  (field_eq "user_id" (VInt u) &&& field_eq k rhs) doc = false.
Proof.
  intros Huv Hdoc. unfold q_and.
  replace (field_eq "user_id" (VInt u) doc) with false; [reflexivity|].
  symmetry. apply not_true_iff_false. rewrite field_eq_true, Hdoc.
  congruence.
Qed.

(** C10. The listings of [U] hold only records whose [user_id] is [U].
    For [V] different from [U]: a record with [user_id] [V] inserted in
    either table, a [create_folder] call by [V] and a [download_file] call
    by [V] all leave both listings of [U] unchanged, for every folder
    path. *)
Theorem listings_owner_isolated (BASE_STORAGE_PATH : string) (st : state)
    (U V : Z) (p : string) :
  U <> V ->
  Forall (fun doc => doc !! "user_id" = Some (VInt U)) (list_user_files st U p)
  /\ Forall (fun doc => doc !! "user_id" = Some (VInt U))
       (list_user_folders st U p)
  /\ (forall doc, doc !! "user_id" = Some (VInt V) ->
        list_user_files (files_db_insert st doc) U p = list_user_files st U p
        /\ list_user_folders (folders_db_insert st doc) U p
           = list_user_folders st U p)
  /\ (forall folder_name now,
        let st' := state_after (create_folder st V folder_name now) in
        list_user_folders st' U p = list_user_folders st U p
        /\ list_user_files st' U p = list_user_files st U p)
  /\ (forall env file_id,
        let st' := fst (download_file BASE_STORAGE_PATH st env file_id V) in
        list_user_files st' U p = list_user_files st U p
        /\ list_user_folders st' U p = list_user_folders st U p).
Proof.
  intros HUV.
  assert (forall doc, doc !! "user_id" = Some (VInt V) ->
            list_user_files (files_db_insert st doc) U p = list_user_files st U p
            /\ list_user_folders (folders_db_insert st doc) U p
               = list_user_folders st U p) as Hins.
  { intros doc Hdoc. unfold list_user_files, list_user_folders.
    cbn [files_db folders_db files_db_insert folders_db_insert].
    rewrite !search_insert_unmatched
      by (by apply (other_user_unmatched _ U V)).
    by split. }
  split; [|split; [|split; [exact Hins|split]]].
  - apply Forall_forall. intros doc Hin.
    by apply list_user_files_spec in Hin as (_ & Hu & _).
  - apply Forall_forall. intros doc Hin.
    by apply list_user_folders_spec in Hin as (_ & Hu & _).
  - intros folder_name now st'. subst st'.
    destruct (create_folder_effect st V folder_name now)
      as [->|(name & _ & ->)]; [by split|].
    split; [|reflexivity].
    apply (Hins (folder_record name V now)). reflexivity.
  - intros env file_id st'. subst st'.
    unfold download_file.
    destruct (env_get_file env) as [info|]; [|by split].
    destruct (env_response env) as [content|]; [|by split].
    cbn [fst]. split; [|reflexivity].
    unfold list_user_files. cbn [files_db files_db_insert disk_write].
    apply search_insert_unmatched.
    apply (other_user_unmatched _ U V); [exact HUV|reflexivity].
Qed.


(** ** Overlapping create_folder calls *)

Lemma count_replies_cons (r : reply) (c : coroutine) (tasks : list coroutine) :
  count_replies r (c :: tasks) =
  ((if bool_decide (replied c = Some r) then 1 else 0)
   + count_replies r tasks)%nat.
Proof.
  unfold count_replies. cbn. by destruct (bool_decide (replied c = Some r)).
Qed.

(** Replacing one coroutine moves the count by what the old and the new
    one contribute. *)
Lemma count_replies_insert (r : reply) (tasks : list coroutine) (i : nat)
    (c c' : coroutine) :
  tasks !! i = Some c ->
  (count_replies r (<[i := c']> tasks)
   + (if bool_decide (replied c = Some r) then 1 else 0)
   = count_replies r tasks
     + (if bool_decide (replied c' = Some r) then 1 else 0))%nat.
Proof.
  revert i. induction tasks as [|x tasks IH]; intros i Hi; [discriminate|].
  destruct i as [|i]; cbn in Hi.
  - injection Hi as ->. cbn [list_insert base.insert].
    rewrite !count_replies_cons. repeat case_bool_decide; lia.
  - change (<[S i := c']> (x :: tasks)) with (x :: <[i := c']> tasks).
    rewrite !count_replies_cons. specialize (IH i Hi).
    repeat case_bool_decide; lia.
Qed.

Lemma count_replies_none (r : reply) (tasks : list coroutine) :
  Forall (fun c => replied c = None) tasks -> count_replies r tasks = 0%nat.
Proof.
  induction 1 as [|c tasks Hc _ IH]; [reflexivity|].
  rewrite count_replies_cons, IH, bool_decide_eq_false_2; [reflexivity|].
  rewrite Hc. discriminate.
Qed.

Section SameCall.

Variables (user_id : Z) (name : string).
Hypothesis name_given : name <> "".

Lemma loop_turn_invariant (cfg : state * list coroutine)
    (pick : nat * datetime) :
  loop_invariant user_id name cfg ->
  loop_invariant user_id name (loop_turn cfg pick).
Proof.
  destruct cfg as [st tasks], pick as [i now].
  intros [Hall Hcase]. unfold loop_turn. cbn [fst snd] in *.
  destruct (tasks !! i) as [c|] eqn:Hi; [|by split].
  assert (same_call user_id name c) as Hc.
  { rewrite Forall_forall in Hall. apply Hall.
    apply list_elem_of_lookup. eauto. }
  pose proof (count_replies_insert (FolderCreated name) tasks i c) as Hcount.
  destruct Hc as [|r ret Hr|r ret Hr]; cbn [resume].
  - (* the coroutine runs its search and insert *)
    destruct Hcase as [[Hfresh Hnone]|[Htaken Hone]].
    + rewrite (create_folder_fresh _ _ _ _ name_given Hfresh).
      unfold loop_invariant.
      cbn [state_after reply_of next_state fst snd]. split.
      * apply Forall_insert; [exact Hall|]. constructor. by left.
      * right. split; [apply has_folder_after_insert|].
        specialize (Hcount (AwaitingReply (FolderCreated name) END) Hi).
        rewrite (count_replies_none _ _ Hnone) in Hcount.
        cbn [replied] in Hcount.
        rewrite bool_decide_eq_false_2 in Hcount by discriminate.
        rewrite bool_decide_eq_true_2 in Hcount by reflexivity. lia.
    + rewrite (create_folder_taken _ _ _ _ name_given Htaken).
      unfold loop_invariant.
      cbn [state_after reply_of next_state fst snd]. split.
      * apply Forall_insert; [exact Hall|]. constructor. by right.
      * right. split; [exact Htaken|].
        specialize (Hcount (AwaitingReply (FolderAlreadyExists name) END) Hi).
        cbn [replied] in Hcount.
        rewrite !bool_decide_eq_false_2 in Hcount by discriminate. lia.
  - (* the reply has been sent: the coroutine returns *)
    unfold loop_invariant. cbn [fst snd]. split.
    + apply Forall_insert; [exact Hall|]. by constructor.
    + destruct Hcase as [[Hfresh Hnone]|[Htaken Hone]].
      * exfalso. rewrite Forall_forall in Hnone.
        assert (AwaitingReply r ret ∈ tasks) as Hin
          by (apply list_elem_of_lookup; eauto).
        apply Hnone in Hin. discriminate.
      * right. split; [exact Htaken|].
        specialize (Hcount (Finished r ret) Hi). cbn [replied] in Hcount. lia.
  - (* a finished coroutine stays as it is *)
    unfold loop_invariant. cbn [fst snd]. rewrite list_insert_id by exact Hi. by split.
Qed.

Lemma run_loop_invariant (schedule : list (nat * datetime))
    (cfg : state * list coroutine) :
  loop_invariant user_id name cfg ->
  loop_invariant user_id name (run_loop cfg schedule).
Proof.
  revert cfg. induction schedule as [|pick schedule IH]; intros cfg Hinv;
    [exact Hinv|].
  cbn. apply IH. by apply loop_turn_invariant.
Qed.

(** Once all have finished, each coroutine counts as one "created" or one
    "already exists". *)
Lemma finished_replies_partition (tasks : list coroutine) :
  Forall (same_call user_id name) tasks ->
  forallb is_finished tasks = true ->
  (count_replies (FolderCreated name) tasks
   + count_replies (FolderAlreadyExists name) tasks = length tasks)%nat.
Proof.
  induction 1 as [|c tasks Hc _ IH]; [reflexivity|].
  cbn [forallb]. intros [Hfin Hrest]%andb_true_iff.
  specialize (IH Hrest). rewrite !count_replies_cons. cbn [length].
  destruct Hc as [|r ret Hr|r ret [-> | ->]]; try discriminate;
    cbn [replied].
  - rewrite bool_decide_eq_true_2 by reflexivity.
    rewrite bool_decide_eq_false_2 by discriminate. lia.
  - rewrite bool_decide_eq_false_2 by discriminate.
    rewrite bool_decide_eq_true_2 by reflexivity. lia.
Qed.

End SameCall.

Lemma loop_turn_length (cfg : state * list coroutine) (pick : nat * datetime) :
  length (snd (loop_turn cfg pick)) = length (snd cfg).
Proof.
  unfold loop_turn. destruct (snd cfg !! fst pick) as [c|]; [|reflexivity].
  destruct (resume (fst cfg) (snd pick) c). cbn. apply length_insert.
Qed.

Lemma run_loop_length (schedule : list (nat * datetime))
    (cfg : state * list coroutine) :
  length (snd (run_loop cfg schedule)) = length (snd cfg).
Proof.
  revert cfg. induction schedule as [|pick schedule IH]; intros cfg;
    [reflexivity|].
  cbn [run_loop fold_left]. fold (run_loop (loop_turn cfg pick) schedule).
  rewrite IH. apply loop_turn_length.
Qed.

(** C8. [n + 1] overlapping [create_folder] calls of one user for one
    non-empty name that no folder of the user carries yet: whatever order
    the event loop resumes the coroutines in, once all have finished exactly
    one has answered "created" and the [n] others "already exists". The
    [search] and the [insert] of a call run in one turn of the loop, with no
    [await] between them. *)
Theorem overlapping_create_folder_one_success (st : state) (user_id : Z)
    (name : string) (n : nat) (schedule : list (nat * datetime)) :
  name <> "" ->
  ~ has_folder st user_id name ->
  let cfg :=
    run_loop (st, replicate (S n) (NotStarted user_id (Some name))) schedule in
  forallb is_finished (snd cfg) = true ->
  length (snd cfg) = S n
  /\ count_replies (FolderCreated name) (snd cfg) = 1%nat
  /\ count_replies (FolderAlreadyExists name) (snd cfg) = n.
Proof.
  intros Hne Hfresh cfg Hfin. subst cfg.
  set (cfg0 := (st, replicate (S n) (NotStarted user_id (Some name)))) in *.
  assert (loop_invariant user_id name cfg0) as Hinv0.
  { split; cbn [fst snd].
    - apply Forall_replicate. constructor.
    - left. split; [exact Hfresh|]. by apply Forall_replicate. }
  pose proof (run_loop_invariant user_id name Hne schedule cfg0 Hinv0)
    as [Hall Hcase].
  pose proof (run_loop_length schedule cfg0) as Hlen.
  cbn [snd cfg0] in Hlen. rewrite length_replicate in Hlen.
  pose proof (finished_replies_partition user_id name _ Hall Hfin) as Hsum.
  split; [exact Hlen|].
  destruct Hcase as [[_ Hnone]|[_ Hone]].
  - exfalso. destruct (snd (run_loop cfg0 schedule)) as [|c tasks];
      [discriminate|].
    apply Forall_cons in Hnone as [Hc _].
    cbn [forallb] in Hfin. apply andb_true_iff in Hfin as [Hfin _].
    destruct c; discriminate.
  - split; [exact Hone|]. lia.
Qed.

(** ** Concrete runs *)

(** The scenario of the specification, on the code: owner 42 creates
    "Photos", uploads [cat.png], and lists. The record is stored, and no
    listing shows it. *)
Example photos_scenario :
  let st1 := state_after (create_folder initial_state 42 (Some "Photos")
                            Sample.noon_early) in
  let st2 := fst (download_file Sample.base st1
                    (Sample.cat_upload Sample.noon_one "PNG!") "F1" 42) in
  (fun doc => doc !! "name") <$> list_user_folders st1 42 "/"
  = [Some (VStr "Photos")]
  /\ (fun doc => doc !! "original_name") <$> files_db st2
     = [Some (VStr "cat.png")]
  /\ list_user_files st2 42 "/" = []
  /\ list_user_files st2 42 "/Photos" = [].
Proof. vm_compute. repeat split. Qed.

(** Two uploads of [cat.png] by user 42 within the second 12:00:00. *)
Example two_uploads_same_second :
  let st1 := fst (download_file Sample.base initial_state
                    (Sample.cat_upload Sample.noon_early "first") "F1" 42) in
  let st2 := fst (download_file Sample.base st1
                    (Sample.cat_upload Sample.noon_late "second") "F2" 42) in
  (fun doc => doc !! "name") <$> files_db st2
  = [Some (VStr "20240101_120000_cat.png");
     Some (VStr "20240101_120000_cat.png")]
  /\ map_to_list (disk st2)
     = [("/srv/dumpbox/storage/42/20240101_120000_cat.png", "second")].
Proof. vm_compute. split; reflexivity. Qed.




Lemma no_folder_of_user_initially (user_id : Z) (name : string) :
  ~ has_folder initial_state user_id name.
Proof. intros (doc & Hin & _). inversion Hin. Qed.

Lemma create_folder_twice_witness :
  "Photos" <> ""
  /\ ~ has_folder initial_state 42 "Photos"
  /\ create_folder
       (state_after (create_folder initial_state 42 (Some "Photos")
                       Sample.noon_early))
       42 (Some "Photos") Sample.noon_late
     = (state_after (create_folder initial_state 42 (Some "Photos")
                       Sample.noon_early),
        FolderAlreadyExists "Photos", END).
Proof.
  assert ("Photos" <> "") as Hne by discriminate.
  pose proof (no_folder_of_user_initially 42 "Photos") as Hfresh.
  split; [exact Hne|]. split; [exact Hfresh|].
  exact (proj2 (proj2 (proj2
    (create_folder_twice initial_state 42 "Photos"
       Sample.noon_early Sample.noon_late Hne Hfresh)))).
Defined.

Lemma created_folder_listed_once_witness :
  reply_of (create_folder initial_state 42 (Some "Photos") Sample.noon_early)
  = FolderCreated "Photos"
  /\ count_named "Photos"
       (list_user_folders
          (state_after (create_folder initial_state 42 (Some "Photos")
                          Sample.noon_early)) 42 "/") = 1%nat.
Proof.
  assert (reply_of (create_folder initial_state 42 (Some "Photos")
                      Sample.noon_early) = FolderCreated "Photos") as Hok
    by reflexivity.
  split; [exact Hok|].
  exact (proj2 (proj2
    (created_folder_listed_once initial_state 42 (Some "Photos")
       Sample.noon_early "Photos" Hok))).
Defined.



Lemma overlapping_create_folder_one_success_witness :
  "Photos" <> ""
  /\ ~ has_folder initial_state 42 "Photos"
  /\ forallb is_finished
       (snd (run_loop
               (initial_state, replicate 3 (NotStarted 42 (Some "Photos")))
               Sample.interleaving)) = true
  /\ count_replies (FolderCreated "Photos")
       (snd (run_loop
               (initial_state, replicate 3 (NotStarted 42 (Some "Photos")))
               Sample.interleaving)) = 1%nat
  /\ count_replies (FolderAlreadyExists "Photos")
       (snd (run_loop
               (initial_state, replicate 3 (NotStarted 42 (Some "Photos")))
               Sample.interleaving)) = 2%nat.
Proof.
  assert ("Photos" <> "") as Hne by discriminate.
  pose proof (no_folder_of_user_initially 42 "Photos") as Hfresh.
  assert (forallb is_finished
            (snd (run_loop
                    (initial_state, replicate 3 (NotStarted 42 (Some "Photos")))
                    Sample.interleaving)) = true) as Hfin
    by (vm_compute; reflexivity).
  split; [exact Hne|]. split; [exact Hfresh|]. split; [exact Hfin|].
  exact (proj2 (overlapping_create_folder_one_success
                  initial_state 42 "Photos" 2 Sample.interleaving
                  Hne Hfresh Hfin)).
Defined.

Lemma listings_owner_isolated_witness :
  1 <> 2
  /\ list_user_folders
       (state_after (create_folder Sample.docs_store 2 (Some "Docs")
                       Sample.noon_late)) 1 "/"
     = list_user_folders Sample.docs_store 1 "/".
Proof.
  assert (1 <> 2) as Hne by lia.
  split; [exact Hne|].
  exact (proj1 (proj1 (proj2 (proj2 (proj2
    (listings_owner_isolated Sample.base Sample.docs_store 1 2 "/" Hne))))
    (Some "Docs") Sample.noon_late)).
Defined.

(** On that store user 2 does get a folder "Docs" of their own, and user 1
    still sees one. *)
Example two_owners_same_name :
  let st := state_after (create_folder Sample.docs_store 2 (Some "Docs")
                           Sample.noon_late) in
  reply_of (create_folder Sample.docs_store 2 (Some "Docs") Sample.noon_late)
  = FolderCreated "Docs"
  /\ length (folders_db st) = 2%nat
  /\ length (list_user_folders st 1 "/") = 1%nat
  /\ length (list_user_folders st 2 "/") = 1%nat.
Proof. vm_compute. repeat split. Qed.

(** ** Trimming *)

Lemma rstrip_cons (c : ascii) (s : string) :
  rstrip (String c s) =
  match rstrip s with
  | EmptyString => if isspace c then "" else String c ""
  | kept => String c kept
  end.
Proof. reflexivity. Qed.

Lemma rstrip_idempotent (s : string) : rstrip (rstrip s) = rstrip s.
Proof.
  induction s as [|c s IH]; [reflexivity|].
  rewrite rstrip_cons. destruct (rstrip s) as [|d kept] eqn:E.
  - destruct (isspace c) eqn:Hc; [reflexivity|].
    cbn. by rewrite Hc.
  - rewrite rstrip_cons, IH. reflexivity.
Qed.

Lemma lstrip_idempotent (s : string) : lstrip (lstrip s) = lstrip s.
Proof.
  induction s as [|c s IH]; [reflexivity|].
  cbn. destruct (isspace c) eqn:Hc; [exact IH|]. cbn. by rewrite Hc.
Qed.

(** Trimming the right end leaves a trimmed left end trimmed. *)
Lemma lstrip_rstrip_fixed (s : string) :
  lstrip s = s -> lstrip (rstrip s) = rstrip s.
Proof.
  destruct s as [|c s]; [reflexivity|].
  cbn [lstrip]. destruct (isspace c) eqn:Hc.
  - intros H. exfalso.
    assert (String.length (lstrip s) <= String.length s)%nat as Hle.
    { clear. induction s as [|d s IH]; cbn; [lia|].
      destruct (isspace d); cbn; lia. }
    rewrite H in Hle. cbn in Hle. lia.
  - intros _. rewrite rstrip_cons.
    destruct (rstrip s); rewrite ?Hc; cbn [lstrip]; by rewrite Hc.
Qed.

Lemma strip_edges (s : string) :
  lstrip (strip s) = strip s /\ rstrip (strip s) = strip s.
Proof.
  unfold strip. split.
  - apply lstrip_rstrip_fixed, lstrip_idempotent.
  - apply rstrip_idempotent.
Qed.

Lemma lstrip_empty_iff (s : string) : lstrip s = "" <-> all_space s = true.
Proof.
  induction s as [|c s IH]; [done|].
  cbn. destruct (isspace c); [exact IH|]. split; discriminate.
Qed.

Lemma rstrip_empty_iff (s : string) : rstrip s = "" <-> all_space s = true.
Proof.
  induction s as [|c s IH]; [done|].
  rewrite rstrip_cons. cbn [all_space].
  destruct (rstrip s) as [|d kept].
  - destruct (isspace c); cbn.
    + split; [intros _; by apply IH|done].
    + split; discriminate.
  - split; [discriminate|]. intros [_ H]%andb_true_iff.
    apply IH in H. discriminate.
Qed.

Lemma all_space_lstrip (s : string) :
  all_space (lstrip s) = true <-> all_space s = true.
Proof.
  induction s as [|c s IH]; [done|].
  cbn. destruct (isspace c) eqn:Hc; [exact IH|]. cbn. by rewrite Hc.
Qed.

Lemma strip_empty_iff (s : string) : strip s = "" <-> all_space s = true.
Proof. unfold strip. by rewrite rstrip_empty_iff, all_space_lstrip. Qed.

(** ** Strings, separators and paths *)

Lemma append_assoc (a b c : string) : (a +:+ b) +:+ c = a +:+ (b +:+ c).
Proof.
  induction a as [|x a IH]; [reflexivity|].
  change (String x ((a +:+ b) +:+ c) = String x (a +:+ (b +:+ c))).
  by rewrite IH.
Qed.

Lemma append_cons (x : ascii) (a b : string) :
  String x a +:+ b = String x (a +:+ b).
Proof. reflexivity. Qed.

Lemma append_nil_r (a : string) : a +:+ "" = a.
Proof.
  induction a as [|x a IH]; [reflexivity|]. rewrite append_cons. by rewrite IH.
Qed.

Lemma no_sep_append (a b : string) :
  no_sep (a +:+ b) = no_sep a && no_sep b.
Proof.
  induction a as [|x a IH]; [reflexivity|].
  rewrite append_cons. cbn [no_sep]. rewrite IH. apply andb_assoc.
Qed.

Lemma no_sep_starts (s : string) : no_sep s = true -> starts_with_sep s = false.
Proof.
  destruct s as [|c s]; [reflexivity|]. cbn.
  destruct (Ascii.eqb c "/"); [discriminate|reflexivity].
Qed.

Lemma ends_with_sep_append (a b : string) :
  b <> "" -> ends_with_sep (a +:+ b) = ends_with_sep b.
Proof.
  intros Hb. induction a as [|x a IH]; [reflexivity|].
  rewrite append_cons. cbn [ends_with_sep].
  destruct (a +:+ b) as [|y r] eqn:E; [|exact IH].
  destruct a, b; try discriminate. congruence.
Qed.

Lemma no_sep_ends (s : string) : no_sep s = true -> ends_with_sep s = false.
Proof.
  induction s as [|c s IH]; [reflexivity|]. cbn [no_sep ends_with_sep].
  intros [Hc Hs]%andb_true_iff. destruct s as [|d s]; [|by apply IH].
  by destruct (Ascii.eqb c "/").
Qed.

(** The first separator of a string splits it in one way only. *)
Lemma first_sep_unique (a b x y : string) :
  no_sep a = true -> no_sep b = true ->
  a +:+ "/" +:+ x = b +:+ "/" +:+ y -> a = b /\ x = y.
Proof.
  revert b. induction a as [|c a IH]; intros [|d b] Ha Hb Heq.
  - change (String "/" x = String "/" y) in Heq. by injection Heq.
  - change (String "/" x = String d (b +:+ "/" +:+ y)) in Heq.
    injection Heq as <- _. discriminate.
  - change (String c (a +:+ "/" +:+ x) = String "/" y) in Heq.
    injection Heq as -> _. discriminate.
  - change (String c (a +:+ "/" +:+ x) = String d (b +:+ "/" +:+ y)) in Heq.
    injection Heq as -> Heq. cbn [no_sep] in Ha, Hb.
    apply andb_true_iff in Ha as [_ Ha]. apply andb_true_iff in Hb as [_ Hb].
    destruct (IH b Ha Hb Heq) as [-> ->]. by split.
Qed.

(** *** [str(n)] *)

Lemma string_of_uint_no_sep (d : Decimal.uint) :
  no_sep (NilEmpty.string_of_uint d) = true.
Proof. induction d; cbn; auto. Qed.

Lemma py_str_no_sep (n : Z) : no_sep (py_str n) = true.
Proof.
  unfold py_str, NilZero.string_of_int, NilZero.string_of_uint.
  destruct (Z.to_int n) as [d|d]; destruct d;
    try reflexivity; cbn [no_sep]; cbn -[NilEmpty.string_of_uint no_sep];
    apply string_of_uint_no_sep.
Qed.

Lemma py_str_nonempty (n : Z) : py_str n <> "".
Proof.
  unfold py_str, NilZero.string_of_int, NilZero.string_of_uint.
  destruct (Z.to_int n) as [d|d]; destruct d; discriminate.
Qed.

Lemma to_int_not_nil (n : Z) :
  Z.to_int n <> Decimal.Pos Decimal.Nil /\ Z.to_int n <> Decimal.Neg Decimal.Nil.
Proof.
  destruct n as [|p|p]; cbn; split; try discriminate;
    intros [= E]; by apply (Unsigned.to_uint_nonnil p).
Qed.

Lemma py_str_inj (n m : Z) : py_str n = py_str m -> n = m.
Proof.
  unfold py_str. intros E. apply DecimalZ.to_int_inj.
  destruct (to_int_not_nil n) as [Hn1 Hn2], (to_int_not_nil m) as [Hm1 Hm2].
  pose proof (NilZero.isi _ Hn1 Hn2) as Hn.
  pose proof (NilZero.isi _ Hm1 Hm2) as Hm.
  rewrite E in Hn. congruence.
Qed.

(** *** Telegram's file name *)

Lemma split_go_nonempty (sep : ascii) (acc s : string) :
  split_go sep acc s <> [].
Proof.
  revert acc. induction s as [|c s IH]; intros acc; [discriminate|].
  cbn. destruct (Ascii.eqb c sep); [discriminate|apply IH].
Qed.

Lemma last_piece_cons (x : string) (l : list string) :
  l <> [] -> last_piece (x :: l) = last_piece l.
Proof. destruct l; [congruence|reflexivity]. Qed.

Lemma last_piece_split_go_no_sep (acc s : string) :
  no_sep acc = true -> no_sep (last_piece (split_go "/" acc s)) = true.
Proof.
  revert acc. induction s as [|c s IH]; intros acc Hacc; [exact Hacc|].
  cbn [split_go]. destruct (Ascii.eqb c "/") eqn:Hc.
  - rewrite last_piece_cons by apply split_go_nonempty. by apply IH.
  - apply IH. rewrite no_sep_append, Hacc. cbn. by rewrite Hc.
Qed.

Lemma split_go_no_sep (acc s : string) :
  no_sep s = true -> split_go "/" acc s = [acc +:+ s].
Proof.
  revert acc. induction s as [|c s IH]; intros acc Hs.
  - by rewrite append_nil_r.
  - cbn [no_sep] in Hs. apply andb_true_iff in Hs as [Hc Hs].
    cbn [split_go]. destruct (Ascii.eqb c "/"); [discriminate|].
    rewrite IH by exact Hs. by rewrite append_assoc.
Qed.

Lemma last_piece_split_go_after_sep (acc a b : string) :
  last_piece (split_go "/" acc (a +:+ "/" +:+ b))
  = last_piece (split_go "/" "" b).
Proof.
  revert acc. induction a as [|c a IH]; intros acc.
  - change ("" +:+ "/" +:+ b) with (String "/" b). cbn [split_go].
    change (Ascii.eqb "/" "/") with true. cbn iota.
    apply last_piece_cons, split_go_nonempty.
  - rewrite append_cons. cbn [split_go]. destruct (Ascii.eqb c "/").
    + rewrite last_piece_cons by apply split_go_nonempty. apply IH.
    + apply IH.
Qed.

(** *** Stored names and paths *)

Lemma digit_not_sep (n : Z) : Ascii.eqb (digit n) "/" = false.
Proof.
  unfold digit.
  assert (Z.to_nat (n mod 10) < 10)%nat as H
    by (pose proof (Z.mod_pos_bound n 10); lia).
  destruct (Z.to_nat (n mod 10)) as [|[|[|[|[|[|[|[|[|[|k]]]]]]]]]];
    try reflexivity. lia.
Qed.

Lemma digits_no_sep (width : nat) (n : Z) : no_sep (digits width n) = true.
Proof.
  revert n. induction width as [|w IH]; intros n; [reflexivity|].
  cbn [digits]. rewrite no_sep_append, IH. cbn [no_sep].
  by rewrite digit_not_sep.
Qed.

Lemma strftime_stamp_no_sep (dt : datetime) : no_sep (strftime_stamp dt) = true.
Proof.
  unfold strftime_stamp. rewrite !no_sep_append, !digits_no_sep. reflexivity.
Qed.

Lemma local_filename_of_no_sep (stamp : datetime) (original : string) :
  no_sep original = true -> no_sep (local_filename_of stamp original) = true.
Proof.
  intros H. unfold local_filename_of.
  rewrite !no_sep_append, strftime_stamp_no_sep, H. reflexivity.
Qed.

Lemma local_filename_of_starts (stamp : datetime) (original : string) :
  starts_with_sep (local_filename_of stamp original) = false.
Proof.
  unfold local_filename_of.
  pose proof (strftime_stamp_length stamp) as Hlen.
  pose proof (strftime_stamp_no_sep stamp) as Hsep.
  destruct (strftime_stamp stamp) as [|c s]; [discriminate|].
  rewrite append_cons. cbn in *.
  destruct (Ascii.eqb c "/"); [discriminate|reflexivity].
Qed.

Lemma user_folder_ends (base : string) (user_id : Z) :
  user_folder base user_id <> ""
  /\ ends_with_sep (user_folder base user_id) = false.
Proof.
  pose proof (py_str_nonempty user_id) as Hne.
  pose proof (no_sep_ends _ (py_str_no_sep user_id)) as Hend.
  unfold user_folder, path_join.
  rewrite (no_sep_starts _ (py_str_no_sep user_id)).
  destruct (String.eqb base "" || ends_with_sep base)%bool.
  - split; [|by rewrite ends_with_sep_append].
    destruct base; [exact Hne|discriminate].
  - split; [destruct base; discriminate|].
    rewrite <- append_assoc. by rewrite ends_with_sep_append.
Qed.

(** A stored path is the user's folder, a separator and the stored name. *)
Lemma local_path_of_unfold (base : string) (user_id : Z) (name : string) :
  starts_with_sep name = false ->
  local_path_of base user_id name
  = user_folder base user_id +:+ "/" +:+ name.
Proof.
  intros Hname. unfold local_path_of. fold (user_folder base user_id).
  destruct (user_folder_ends base user_id) as [Hne Hend].
  unfold path_join at 1. rewrite Hname, Hend, orb_false_r.
  destruct (String.eqb_spec (user_folder base user_id) ""); [congruence|].
  reflexivity.
Qed.

(** Two users' folders under the same base differ. *)
Lemma user_folder_sep_inj (base : string) (u v : Z) (x y : string) :
  user_folder base u +:+ "/" +:+ x = user_folder base v +:+ "/" +:+ y ->
  u = v /\ x = y.
Proof.
  unfold user_folder, path_join.
  rewrite !(no_sep_starts _ (py_str_no_sep _)).
  destruct (String.eqb base "" || ends_with_sep base)%bool;
    rewrite ?append_assoc; intros Heq;
    repeat (apply (inj (String.append _)) in Heq);
    apply first_sep_unique in Heq as [Hu Hxy];
    auto using py_str_no_sep, py_str_inj.
Qed.

(** X1. Two uploads are written to the same local path exactly when they
    come from the same user, in the same rendered second, with the same
    original name. *)
Theorem stored_path_injective (base : string) (u1 u2 : Z)
    (stamp1 stamp2 : datetime) (original1 original2 : string) :
  local_path_of base u1 (local_filename_of stamp1 original1)
  = local_path_of base u2 (local_filename_of stamp2 original2)
  <-> u1 = u2 /\ strftime_stamp stamp1 = strftime_stamp stamp2
      /\ original1 = original2.
Proof.
  split.
  - rewrite !local_path_of_unfold by apply local_filename_of_starts.
    intros [Hu Hname]%user_folder_sep_inj.
    apply local_filename_of_inj in Hname. tauto.
  - intros (-> & Hstamp & ->). unfold local_filename_of. by rewrite Hstamp.
Qed.


(** X3. The original name taken from Telegram's [file_path] contains no
    separator, so the file is written directly into the user's folder: the last segment of
    the stored path is the stored name. *)
Theorem stored_name_is_basename (base : string) (user_id : Z)
    (stamp : datetime) (telegram_path : string) :
  let original := last_piece (split "/" telegram_path) in
  no_sep original = true
  /\ local_path_of base user_id (local_filename_of stamp original)
     = user_folder base user_id +:+ "/" +:+ local_filename_of stamp original
  /\ last_piece
       (split "/" (local_path_of base user_id (local_filename_of stamp original)))
     = local_filename_of stamp original.
Proof.
  intros original.
  assert (no_sep original = true) as Hsep
    by (by apply last_piece_split_go_no_sep).
  split; [exact Hsep|]. split.
  - apply local_path_of_unfold, local_filename_of_starts.
  - rewrite local_path_of_unfold by apply local_filename_of_starts.
    unfold split. rewrite last_piece_split_go_after_sep.
    rewrite split_go_no_sep by (by apply local_filename_of_no_sep).
    reflexivity.
Qed.


(** ** Stores built by the handlers *)

Lemma has_folder_key (st : state) (user_id : Z) (name : string) :
  has_folder st user_id name
  <-> (Some (VInt user_id), Some (VStr name)) ∈ folder_key <$> folders_db st.
Proof.
  rewrite list_elem_of_fmap. unfold has_folder, folder_key. split.
  - intros (doc & Hin & Hn & Hu). exists doc. by rewrite Hn, Hu.
  - intros (doc & [= Hu Hn] & Hin). by exists doc.
Qed.

Lemma written_file_disk_grows (st : state) (path content : string)
    (doc : document) :
  written_file st doc -> written_file (disk_write st path content) doc.
Proof.
  intros (Hf & Hn & Hi & p & Hp & Hd). repeat split; try assumption.
  exists p. split; [exact Hp|]. cbn. by apply lookup_insert_is_Some'; right.
Qed.

Lemma handler_built_initial : handler_built initial_state.
Proof. repeat split; constructor. Qed.

Lemma create_folder_keeps_built (st : state) (user_id : Z)
    (folder_name : option string) (now : datetime) :
  handler_built st ->
  handler_built (state_after (create_folder st user_id folder_name now)).
Proof.
  intros (Hfolders & Hkeys & Hfiles).
  destruct folder_name as [n|]; [|by repeat split].
  destruct (string_dec n "") as [->|Hne]; [by repeat split|].
  destruct (has_folder_dec st user_id n) as [Hex|Hex].
  - rewrite (create_folder_taken _ _ _ _ Hne Hex). by repeat split.
  - rewrite (create_folder_fresh _ _ _ _ Hne Hex).
    cbn [state_after fst]. unfold handler_built.
    cbn [folders_db files_db folders_db_insert]. unfold TinyDB.insert.
    split; [|split].
    + apply Forall_app. split; [exact Hfolders|].
      constructor; [|constructor]. by exists n, user_id, now.
    + rewrite fmap_app. apply NoDup_app. split; [exact Hkeys|]. split.
      * intros key Hin [<-|[]]%list_elem_of_In.
        apply Hex, has_folder_key. exact Hin.
      * apply NoDup_singleton.
    + exact Hfiles.
Qed.

Lemma download_file_keeps_built (base : string) (st : state)
    (env : download_env) (file_id : string) (user_id : Z) :
  handler_built st ->
  handler_built (fst (download_file base st env file_id user_id)).
Proof.
  intros (Hfolders & Hkeys & Hfiles). unfold download_file.
  destruct (env_get_file env) as [info|]; [|by repeat split].
  destruct (env_response env) as [content|]; [|by repeat split].
  cbn [fst]. unfold handler_built.
  cbn [folders_db files_db files_db_insert disk_write].
  split; [exact Hfolders|]. split; [exact Hkeys|].
  unfold TinyDB.insert. apply Forall_app. split.
  - eapply Forall_impl; [exact Hfiles|].
    intros doc Hdoc. by apply (written_file_disk_grows st).
  - constructor; [|constructor].
    split; [reflexivity|]. split; [by eexists|]. split; [by eexists|].
    exists (local_path_of base user_id
              (local_filename_of (env_now_stamp env)
                 (last_piece (split "/" (file_path info))))).
    split; [reflexivity|]. cbn [disk files_db_insert disk_write].
    rewrite lookup_insert_eq. by eexists.
Qed.

Lemma step_keeps_built (base : string) (st : state) (ev : event) :
  handler_built st -> handler_built (step base st ev).
Proof.
  destruct ev; cbn [step];
    [apply create_folder_keeps_built|apply download_file_keeps_built].
Qed.

Lemma run_keeps_built (base : string) (evs : list event) (st : state) :
  handler_built st -> handler_built (run base st evs).
Proof.
  revert st. induction evs as [|ev evs IH]; intros st Hst; [exact Hst|].
  cbn. apply IH. by apply step_keeps_built.
Qed.

Lemma NoDup_fmap_filter {A B : Type} (f : A -> B) (P : A -> bool)
    (l : list A) :
  NoDup (f <$> l) -> NoDup (f <$> List.filter P l).
Proof.
  induction l as [|x l IH]; [intros; constructor|].
  cbn [fmap list_fmap]. intros [Hx Hl]%NoDup_cons. cbn [List.filter].
  destruct (P x); [|by apply IH].
  cbn [fmap list_fmap]. apply NoDup_cons. split; [|by apply IH].
  intros Hin. apply Hx. apply list_elem_of_fmap in Hin as (y & -> & Hy).
  apply list_elem_of_fmap. exists y. split; [reflexivity|].
  apply list_elem_of_In. apply list_elem_of_In in Hy.
  by apply List.filter_In in Hy as [Hy _].
Qed.

Lemma NoDup_fmap_finer {A B C : Type} (f : A -> B) (g : A -> C)
    (l : list A) :
  (forall x y, x ∈ l -> y ∈ l -> g x = g y -> f x = f y) ->
  NoDup (f <$> l) -> NoDup (g <$> l).
Proof.
  induction l as [|x l IH]; intros Hfg; [intros; constructor|].
  cbn [fmap list_fmap]. intros [Hx Hl]%NoDup_cons. apply NoDup_cons. split.
  - intros Hin. apply Hx. apply list_elem_of_fmap in Hin as (y & Hxy & Hy).
    apply list_elem_of_fmap. exists y. split; [|exact Hy].
    apply Hfg; [by left|by right|exact Hxy].
  - apply IH; [|exact Hl]. intros a b Ha Hb. apply Hfg; by right.
Qed.

(** X4. From the empty store, whatever folder creations and uploads are
    served, no two stored folder records have the same owner and the same
    name. *)
Theorem folder_names_unique_per_owner (base : string) (evs : list event) :
  NoDup (folder_key <$> folders_db (run base initial_state evs)).
Proof.
  by destruct (run_keeps_built base evs _ handler_built_initial) as (_ & H & _).
Qed.

(** X5. From the empty store, a folder listing of a user never shows the
    same name twice. *)
Theorem listing_names_unique (base : string) (evs : list event)
    (user_id : Z) (parent_folder : string) :
  NoDup ((fun doc => doc !! "name")
           <$> list_user_folders (run base initial_state evs)
                 user_id parent_folder).
Proof.
  destruct (run_keeps_built base evs _ handler_built_initial) as (_ & H & _).
  apply (NoDup_fmap_finer folder_key).
  - intros x y Hx Hy Hname.
    apply list_user_folders_spec in Hx as (_ & Hx & _).
    apply list_user_folders_spec in Hy as (_ & Hy & _).
    unfold folder_key. by rewrite Hx, Hy, Hname.
  - unfold list_user_folders, search. by apply NoDup_fmap_filter.
Qed.


(** *** Nothing is removed *)




(** ** list_files *)

Lemma button_rows_Some (make : document -> option button)
    (docs : list document) (rows : list (list button)) :
  button_rows make docs = Some rows ->
  Forall2 (fun doc row => exists b, make doc = Some b /\ row = [b]) docs rows.
Proof.
  revert rows. induction docs as [|doc docs IH]; intros rows; cbn.
  - intros [= <-]. constructor.
  - destruct (make doc) as [b|] eqn:Hb; [|discriminate].
    destruct (button_rows make docs) as [rest|]; [|discriminate].
    intros [= <-]. constructor; [by exists b|by apply IH].
Qed.







(** ** upload_file *)


(** ** create_folder as a handler *)

Lemma create_folder_handler_with_message_eq (st : state)
    (user_data : gmap string string) (upd : update) (now : datetime)
    (user_id : Z) (m : message_t) :
  effective_user upd = Some user_id ->
  message upd = Some m ->
  create_folder_handler st user_data upd now
  = (state_after (create_folder st user_id (user_data !! new_folder_name) now),
     [ReplyText
        (reply_of (create_folder st user_id (user_data !! new_folder_name) now))],
     Return
       (Some (next_state
                (create_folder st user_id (user_data !! new_folder_name) now)))).
Proof.
  intros Hu Hm. unfold create_folder_handler, reply_text. rewrite Hu, Hm.
  destruct (user_data !! new_folder_name) as [[|c s]|]; try reflexivity.
  unfold create_folder. by destruct (search _ _).
Qed.


(** X12. On an update that has a user but no message (a callback query),
    the handler sends nothing and raises [AttributeError], after the store
    effect of [create_folder]: a pending non-empty name that the user does
    not have yet is stored as a folder all the same. *)
Theorem create_folder_handler_without_message (st : state)
    (user_data : gmap string string) (upd : update) (now : datetime)
    (user_id : Z) :
  effective_user upd = Some user_id ->
  message upd = None ->
  let out := create_folder st user_id (user_data !! new_folder_name) now in
  create_folder_handler st user_data upd now
  = (state_after out, [], Raise AttributeError)
  /\ forall name,
       user_data !! new_folder_name = Some name -> name <> "" ->
       ~ has_folder st user_id name ->
       folders_db (state_after out)
       = folders_db st ++ [folder_record name user_id now].
Proof.
  intros Hu Hm out. subst out. split.
  - unfold create_folder_handler, reply_text. rewrite Hu, Hm.
    destruct (user_data !! new_folder_name) as [[|c s]|]; try reflexivity.
    unfold create_folder. by destruct (search _ _).
  - intros name -> Hne Hfresh.
    by rewrite (create_folder_fresh _ _ _ _ Hne Hfresh).
Qed.

(** ** handle_folder_name *)

(** X13. [handle_folder_name] on a text message: the pending name it
    stores is the text without leading and trailing whitespace. A text of
    whitespace only creates nothing, asks for the name again and stays in
    [FOLDER_NAME]; any other text ends the conversation with "created" or
    "already exists" for the trimmed name. *)
Theorem handle_folder_name_trims (st : state) (user_data : gmap string string)
    (upd : update) (now : datetime) (user_id : Z) (m : message_t)
    (text : string) :
  effective_user upd = Some user_id ->
  message upd = Some m ->
  msg_text m = Some text ->
  let name := strip text in
  lstrip name = name /\ rstrip name = name
  /\ exists r st',
       handle_folder_name st user_data upd now
       = (<[new_folder_name := name]> user_data,
          (st', [ReplyText r],
           Return (Some (if all_space text then FOLDER_NAME else END))))
       /\ (if all_space text
           then name = "" /\ r = AskFolderName /\ st' = st
           else name <> ""
                /\ has_folder st' user_id name
                /\ (r = FolderCreated name \/ r = FolderAlreadyExists name)).
Proof.
  intros Hu Hm Ht name.
  destruct (strip_edges text) as [Hl Hr]. split; [exact Hl|]. split; [exact Hr|].
  unfold handle_folder_name. rewrite Hm, Ht. fold name.
  rewrite (create_folder_handler_with_message_eq _ _ _ _ _ _ Hu Hm).
  rewrite lookup_insert_eq.
  destruct (all_space text) eqn:Hsp.
  - apply strip_empty_iff in Hsp. fold name in Hsp. rewrite Hsp.
    do 2 eexists. split; [reflexivity|]. by repeat split.
  - assert (name <> "") as Hne.
    { intros E. apply strip_empty_iff in E. congruence. }
    destruct (has_folder_dec st user_id name) as [Hex|Hex].
    + rewrite (create_folder_taken _ _ _ _ Hne Hex).
      do 2 eexists. split; [reflexivity|]. split; [exact Hne|].
      split; [exact Hex|]. by right.
    + rewrite (create_folder_fresh _ _ _ _ Hne Hex).
      do 2 eexists. split; [reflexivity|]. split; [exact Hne|].
      split; [apply has_folder_after_insert|]. by left.
Qed.

(** X14. The pending name stays in [user_data] after the conversation has
    ended. Once a non-blank name has been entered, a later [create_folder]
    call of that user with the same [user_data] does not ask for a name: it
    answers "already exists" for the old name and changes nothing. *)
Theorem pending_name_is_kept (st : state) (user_data : gmap string string)
    (upd upd' : update) (now now' : datetime) (user_id : Z)
    (m m' : message_t) (text : string) :
  effective_user upd = Some user_id ->
  message upd = Some m ->
  msg_text m = Some text ->
  all_space text = false ->
  effective_user upd' = Some user_id ->
  message upd' = Some m' ->
  let first := handle_folder_name st user_data upd now in
  let user_data' := fst first in
  let st' := fst (fst (snd first)) in
  user_data' !! new_folder_name = Some (strip text)
  /\ create_folder_handler st' user_data' upd' now'
     = (st', [ReplyText (FolderAlreadyExists (strip text))], Return (Some END)).
Proof.
  intros Hu Hm Ht Hsp Hu' Hm' first user_data' st'.
  assert (strip text <> "") as Hne.
  { intros E. apply strip_empty_iff in E. congruence. }
  subst st' user_data' first. unfold handle_folder_name. rewrite Hm, Ht.
  cbn [fst snd]. split; [apply lookup_insert_eq|].
  rewrite (create_folder_handler_with_message_eq _ _ _ _ _ _ Hu Hm).
  rewrite (create_folder_handler_with_message_eq _ _ _ _ _ _ Hu' Hm').
  rewrite !lookup_insert_eq. cbn [fst snd].
  rewrite (create_folder_taken _ _ (strip text)); [reflexivity|exact Hne|].
  destruct (has_folder_dec st user_id (strip text)) as [Hex|Hex].
  - by rewrite (create_folder_taken _ _ _ _ Hne Hex).
  - rewrite (create_folder_fresh _ _ _ _ Hne Hex).
    apply has_folder_after_insert.
Qed.

(** ** Buttons and callback patterns *)

Lemma button_rows_buttons (make : document -> option button)
    (docs : list document) (rows : list (list button)) (b : button) :
  button_rows make docs = Some rows ->
  b ∈ buttons_of rows -> exists doc, doc ∈ docs /\ make doc = Some b.
Proof.
  intros Hrows%button_rows_Some. unfold buttons_of.
  induction Hrows as [|doc row docs rows (b' & Hb' & ->) _ IH]; cbn.
  - intros Hin. inversion Hin.
  - intros [->|Hin]%elem_of_cons.
    + exists doc. split; [by left|exact Hb'].
    + destruct (IH Hin) as (d & Hd & Hmake). exists d. split; [by right|exact Hmake].
Qed.

(** X15. Of the buttons [list_files] shows, only "New" carries callback
    data that a registered [CallbackQueryHandler] pattern matches: the
    folder buttons, the file buttons and "Home" reach no handler. Of the
    menu of [start], "Search" reaches none. *)
Theorem buttons_without_handler (st : state) (upd : update)
    (keyboard : list (list button)) (b : button) :
  list_files st upd = (st, [EditFilesAndFolders keyboard], Return None) ->
  b ∈ buttons_of keyboard ->
  (handled_callback (callback_data b) = true <-> button_icon b = IconPlus)
  /\ Forall (fun b' => handled_callback (callback_data b') = true
                       <-> button_icon b' <> IconSearch)
       (buttons_of start_keyboard).
Proof.
  intros Hlist Hb. split.
  - unfold list_files in Hlist.
    destruct (callback_query upd) as [query|]; [|discriminate].
    destruct (button_rows folder_button _) as [folder_rows|] eqn:Hfo;
      [|discriminate].
    destruct (button_rows file_button _) as [file_rows|] eqn:Hfi;
      [|discriminate].
    injection Hlist as <-. unfold buttons_of in Hb.
    rewrite !concat_app in Hb.
    apply elem_of_app in Hb as [Hb|Hb]; [|apply elem_of_app in Hb as [Hb|Hb]].
    + apply (button_rows_buttons _ _ _ _ Hfo) in Hb as (doc & _ & Hmake).
      unfold folder_button in Hmake.
      destruct (doc !! "name"); [|discriminate]. injection Hmake as <-.
      split; discriminate.
    + apply (button_rows_buttons _ _ _ _ Hfi) in Hb as (doc & _ & Hmake).
      unfold file_button in Hmake.
      destruct (doc !! "name"), (doc !! "file_id"); try discriminate.
      injection Hmake as <-. split; discriminate.
    + cbn in Hb. apply elem_of_cons in Hb as [->|Hb];
        [split; discriminate|].
      apply elem_of_cons in Hb as [->|Hb]; [by split|]. inversion Hb.
  - repeat constructor; try discriminate; try reflexivity; intros; try done.
Qed.

(** ** Folder names are per owner *)

Lemma has_folder_other_owner (st : state) (doc : document) (U V : Z)
    (name : string) :
  U <> V -> doc !! "user_id" = Some (VInt U) ->
  has_folder (folders_db_insert st doc) V name <-> has_folder st V name.
Proof.
  intros HUV Hdoc. unfold has_folder. cbn [folders_db folders_db_insert].
  unfold TinyDB.insert. split.
  - intros (d & Hin & Hn & Hu). apply elem_of_app in Hin as [Hin|Hin].
    + by exists d.
    + apply list_elem_of_singleton in Hin as ->. congruence.
  - intros (d & Hin & Hn & Hu). exists d. split; [|by split].
    apply elem_of_app. by left.
Qed.

(** X16. The name check is per owner: a folder record of another user,
    whatever its name, does not change the answer [create_folder] gives. *)
Theorem folder_names_are_per_owner (st : state) (doc : document) (U V : Z)
    (folder_name : option string) (now : datetime) :
  U <> V ->
  doc !! "user_id" = Some (VInt U) ->
  reply_of (create_folder (folders_db_insert st doc) V folder_name now)
  = reply_of (create_folder st V folder_name now).
Proof.
  intros HUV Hdoc.
  destruct folder_name as [n|]; [|reflexivity].
  destruct (string_dec n "") as [->|Hne]; [reflexivity|].
  destruct (has_folder_dec st V n) as [Hex|Hex].
  - rewrite (create_folder_taken st _ _ _ Hne Hex).
    rewrite (create_folder_taken (folders_db_insert st doc)); [reflexivity|exact Hne|].
    by apply (has_folder_other_owner st doc U V).
  - rewrite (create_folder_fresh st _ _ _ Hne Hex).
    rewrite (create_folder_fresh (folders_db_insert st doc)); [reflexivity|exact Hne|].
    by rewrite (has_folder_other_owner st doc U V).
Qed.

(** ** Records and the disk *)







(** ** Concrete runs of the handlers *)





Lemma create_folder_handler_without_message_witness :
  effective_user (Sample.callback_update 42 "create_folder") = Some 42
  /\ message (Sample.callback_update 42 "create_folder") = None
  /\ create_folder_handler initial_state Sample.photos_pending
       (Sample.callback_update 42 "create_folder") Sample.noon_early
     = (folders_db_insert initial_state
          (folder_record "Photos" 42 Sample.noon_early),
        [], Raise AttributeError).
Proof.
  split; [reflexivity|]. split; [reflexivity|].
  exact (proj1 (create_folder_handler_without_message initial_state
                  Sample.photos_pending
                  (Sample.callback_update 42 "create_folder")
                  Sample.noon_early 42 eq_refl eq_refl)).
Defined.

Lemma handle_folder_name_trims_witness :
  effective_user (Sample.text_update 42 "  Photos ") = Some 42
  /\ message (Sample.text_update 42 "  Photos ")
     = Some (mkMessage (Some "  Photos ") None)
  /\ msg_text (mkMessage (Some "  Photos ") None) = Some "  Photos "
  /\ strip "  Photos " = "Photos"
  /\ lstrip (strip "  Photos ") = strip "  Photos ".
Proof.
  split; [reflexivity|]. split; [reflexivity|]. split; [reflexivity|].
  split; [reflexivity|].
  exact (proj1 (handle_folder_name_trims initial_state ∅
                  (Sample.text_update 42 "  Photos ") Sample.noon_early 42
                  (mkMessage (Some "  Photos ") None) "  Photos "
                  eq_refl eq_refl eq_refl)).
Defined.

Lemma pending_name_is_kept_witness :
  all_space " Photos" = false
  /\ create_folder_handler
       (fst (fst (snd (handle_folder_name initial_state ∅
                         (Sample.text_update 42 " Photos") Sample.noon_early))))
       (fst (handle_folder_name initial_state ∅
               (Sample.text_update 42 " Photos") Sample.noon_early))
       (Sample.text_update 42 "Holidays") Sample.noon_one
     = (fst (fst (snd (handle_folder_name initial_state ∅
                         (Sample.text_update 42 " Photos") Sample.noon_early))),
        [ReplyText (FolderAlreadyExists "Photos")], Return (Some END)).
Proof.
  split; [reflexivity|].
  exact (proj2 (pending_name_is_kept initial_state ∅
                  (Sample.text_update 42 " Photos")
                  (Sample.text_update 42 "Holidays")
                  Sample.noon_early Sample.noon_one 42
                  (mkMessage (Some " Photos") None)
                  (mkMessage (Some "Holidays") None) " Photos"
                  eq_refl eq_refl eq_refl eq_refl eq_refl eq_refl)).
Defined.

Lemma buttons_without_handler_witness :
  list_files Sample.docs_store (Sample.callback_update 1 "list_files")
  = (Sample.docs_store, [EditFilesAndFolders Sample.docs_keyboard], Return None)
  /\ mkButton IconFolder "Docs" "open_folder_Docs"
     ∈ buttons_of Sample.docs_keyboard
  /\ (handled_callback "open_folder_Docs" = true <-> IconFolder = IconPlus).
Proof.
  assert (list_files Sample.docs_store (Sample.callback_update 1 "list_files")
          = (Sample.docs_store, [EditFilesAndFolders Sample.docs_keyboard],
             Return None)) as Hlist by (vm_compute; reflexivity).
  assert (mkButton IconFolder "Docs" "open_folder_Docs"
          ∈ buttons_of Sample.docs_keyboard) as Hin by (cbn; by left).
  split; [exact Hlist|]. split; [exact Hin|].
  exact (proj1 (buttons_without_handler _ _ _ _ Hlist Hin)).
Defined.

Lemma folder_names_are_per_owner_witness :
  1 <> 2
  /\ folder_record "Docs" 1 Sample.noon_early !! "user_id" = Some (VInt 1)
  /\ reply_of (create_folder Sample.docs_store 2 (Some "Docs") Sample.noon_late)
     = reply_of (create_folder initial_state 2 (Some "Docs") Sample.noon_late).
Proof.
  assert (1 <> 2) as Hne by lia.
  split; [exact Hne|]. split; [reflexivity|].
  exact (folder_names_are_per_owner initial_state
           (folder_record "Docs" 1 Sample.noon_early) 1 2 (Some "Docs")
           Sample.noon_late Hne eq_refl).
Defined.

